(** * MassTransportProperties: diffusion-coefficient correlations

    A shallow embedding of [DiffusionAlloys.py] ([MetalDiff]) and
    [DiffusionGases.py] ([DiffGas_AB]) together with the properties their
    specification states about them.

    Number model.  The value of a Python [float] is idealised as a real
    number: the arithmetic of the two functions is carried out in [R], and
    rounding, [inf] and [nan] are outside the model (a product or quotient
    that Python rounds to [inf] or to [0.0] is its exact value here).
    What the model keeps of Python's arithmetic is what decides control
    flow: true division raises [ZeroDivisionError] exactly when the
    divisor is zero, [math.sqrt] raises [ValueError] on a negative
    argument, [math.exp] and [**] raise [OverflowError] when their result
    exceeds the largest double [DBL_MAX], and [**] with a negative base
    and a fractional exponent leaves the floats and yields a complex
    number.  Dictionaries are finite maps with string keys
    ([gmap string _]); a failed subscript raises [KeyError].  [print] is
    modelled by the list of lines written to the console. *)

From Stdlib Require Import Reals Lra ZArith.
From stdpp Require Import gmap strings list pretty.

(** ** The fragment of the Python runtime the two functions use *)

Module Python.

(** Exceptions that the modelled code can raise.  [KeyError] carries its
    argument (the missing key for a failed subscript, the message for an
    explicit [raise KeyError('...')]). *)
Inductive exn : Type :=
| KeyError (arg : string)
| ZeroDivisionError
| ValueError
| OverflowError.

(** Outcome of evaluating an expression: a value, or a raised exception. *)
Inductive result (A : Type) : Type :=
| Ok (a : A)
| Raise (e : exn).
Arguments Ok {A} a.
Arguments Raise {A} e.

#[export] Instance result_ret : MRet result := fun _ a => Ok a.
#[export] Instance result_bind : MBind result := fun _ _ f r =>
  match r with
  | Ok a => f a
  | Raise e => Raise e
  end.

(** [d[k]] on a dictionary with string keys. *)
Definition getitem {V : Type} (d : gmap string V) (k : string) : result V :=
  match d !! k with
  | Some v => Ok v
  | None => Raise (KeyError k)
  end.

(** [try: c  except KeyError: raise KeyError(msg)]: only [KeyError] is
    intercepted, every other exception propagates unchanged. *)
Definition except_KeyError_raise {A : Type} (msg : string) (c : result A)
  : result A :=
  match c with
  | Raise (KeyError _) => Raise (KeyError msg)
  | r => r
  end.

(** [try: return c  except: None] followed by [rest]: a bare [except]
    intercepts every exception, and control then falls through. *)
Definition except_all_pass {A : Type} (c : result A) (rest : result A)
  : result A :=
  match c with
  | Ok v => Ok v
  | Raise _ => rest
  end.

#[export] Instance Req_decision : EqDecision R := Req_dec_T.
#[export] Instance Rlt_decision : RelDecision Rlt := Rlt_dec.

(** [x / y] on floats. *)
Definition float_div (x y : R) : result R :=
  if decide (y = 0%R) then Raise ZeroDivisionError else Ok (x / y)%R.

(** [math.sqrt]. *)
Definition math_sqrt (x : R) : result R :=
  if decide (x < 0)%R then Raise ValueError else Ok (sqrt x).

(** The largest finite double, [2^1024 - 2^971]. *)
Definition DBL_MAX : R := IZR (2 ^ 1024 - 2 ^ 971).

(** [math.exp]: a result beyond the doubles is a range error. *)
Definition math_exp (x : R) : result R :=
  if decide (DBL_MAX < exp x)%R then Raise OverflowError else Ok (exp x).

(** Numbers: [**] can leave the floats, so the values of the gas
    correlation are floats or complex numbers. *)
Inductive number : Type :=
| Float (x : R)
| Complex (re im : R).

Definition real (a : number) : R :=
  match a with Float x => x | Complex re _ => re end.

Definition imag (a : number) : R :=
  match a with Float _ => 0%R | Complex _ im => im end.

(** [a + b]; a float operand is coerced to complex when the other one is. *)
Definition num_add (a b : number) : number :=
  match a, b with
  | Float x, Float y => Float (x + y)
  | _, _ => Complex (real a + real b) (imag a + imag b)
  end.

(** [a * b]. *)
Definition num_mul (a b : number) : number :=
  match a, b with
  | Float x, Float y => Float (x * y)
  | _, _ => Complex (real a * real b - imag a * imag b)
                    (real a * imag b + imag a * real b)
  end.

(** [a / b]; a zero divisor raises for floats and for complex numbers. *)
Definition num_div (a b : number) : result number :=
  match a, b with
  | Float x, Float y => x' ← float_div x y; Ok (Float x')
  | _, _ =>
      if decide (real b = 0 ∧ imag b = 0)%R then Raise ZeroDivisionError
      else
        let d := (real b * real b + imag b * imag b)%R in
        Ok (Complex ((real a * real b + imag a * imag b) / d)
                    ((imag a * real b - real a * imag b) / d))
  end.

(** [math.atan2], the argument of the complex number [x + y j]. *)
Definition atan2 (y x : R) : R :=
  if decide (0 < x)%R then atan (y / x)
  else if decide (x < 0)%R then
    (if decide (y < 0)%R then atan (y / x) - PI else atan (y / x) + PI)%R
  else if decide (0 < y)%R then (PI / 2)%R
  else if decide (y < 0)%R then (- PI / 2)%R
  else 0%R.

(** [a ** y] for a complex base and a real exponent (polar form); a
    modulus beyond the doubles is a range error. *)
Definition complex_pow (a : number) (y : R) : result number :=
  if decide (y = 0)%R then Ok (Complex 1 0)
  else if decide (real a = 0 ∧ imag a = 0)%R then
    (if decide (y < 0)%R then Raise ZeroDivisionError else Ok (Complex 0 0))
  else
    let len := Rpower (sqrt (real a * real a + imag a * imag a)) y in
    let phase := (atan2 (imag a) (real a) * y)%R in
    if decide (DBL_MAX < len)%R then Raise OverflowError
    else Ok (Complex (len * cos phase) (len * sin phase)).

Definition is_integer (y : R) : Prop := IZR (Int_part y) = y.

(** The float result [v] of a power, or the range error of a result
    beyond the doubles. *)
Definition in_float_range (v : R) : result number :=
  if decide (DBL_MAX < Rabs v)%R then Raise OverflowError else Ok (Float v).

(** [x ** y] on floats: a negative base with a fractional exponent is
    handed over to the complex power. *)
Definition float_pow (x y : R) : result number :=
  if decide (y = 0)%R then Ok (Float 1)
  else if decide (x = 0)%R then
    (if decide (y < 0)%R then Raise ZeroDivisionError else Ok (Float 0))
  else if decide (0 < x)%R then in_float_range (Rpower x y)
  else if decide (is_integer y) then in_float_range (powerRZ x (Int_part y))
  else complex_pow (Complex x 0) y.

(** [a ** y] for a real exponent. *)
Definition num_pow (a : number) (y : R) : result number :=
  match a with
  | Float x => float_pow x y
  | Complex _ _ => complex_pow a y
  end.

End Python.

Import Python.

(** ** DiffusionAlloys.py *)

Module DiffusionAlloys.

(** [R = 8.314], the ideal gas constant (the source's name [R] is the type
    of reals here). *)
Definition R_gas : R := 8.314%R.

(** Atomic weights [g/mol] *)
Definition M : gmap string R :=
  list_to_map
    [("H", 1.00794%R);
     ("D", 2.01410%R);
     ("T", 3.01605%R);
     ("He", 4.00260%R)].

(** Pre-exponential factors [m^2/s] *)
Definition D0 : gmap string (gmap string R) :=
  list_to_map
    [("SS304", list_to_map [("H", 1.22e-6%R)]);
     ("SS316", list_to_map [("H", 1.24e-6%R); ("D", 1.38e-6%R)]);
     ("Alpha-Fe", list_to_map [("H", 3.87e-8%R)]);
     ("75Pd-25Ag", list_to_map [("H", 3.07e-7%R); ("D", 1.87e-7%R)]);
     ("EUROFER97", list_to_map [("H", 4.57e-7%R); ("D", 1.50e-7%R)]);
     ("OPTIFER-IVb",
        list_to_map [("H", 5.49e-8%R); ("D", 4.61e-8%R); ("T", 4.17e-8%R)])].

(** Activation energies [kJ/mol] *)
Definition Ea : gmap string (gmap string R) :=
  list_to_map
    [("SS304", list_to_map [("H", 54.85%R)]);
     ("SS316", list_to_map [("H", 55.10%R); ("D", 57.50%R)]);
     ("Alpha-Fe", list_to_map [("H", 4.50%R)]);
     ("75Pd-25Ag", list_to_map [("H", 25.90%R); ("D", 24.69%R)]);
     ("EUROFER97", list_to_map [("H", 22.30%R); ("D", 14.50%R)]);
     ("OPTIFER-IVb",
        list_to_map [("H", 10.60%R); ("D", 11.30%R); ("T", 12.00%R)])].

(** Temperature range [K], lower bounds *)
Definition T_min : gmap string Z :=
  list_to_map
    [("SS304", 645%Z);
     ("SS316", 623%Z);
     ("Alpha-Fe", 573%Z);
     ("75Pd-25Ag", 323%Z);
     ("EUROFER97", 373%Z);
     ("OPTIFER-IVb", 423%Z)].

(** Temperature range [K], upper bounds *)
Definition T_max : gmap string Z :=
  list_to_map
    [("SS304", 945%Z);
     ("SS316", 1123%Z);
     ("Alpha-Fe", 873%Z);
     ("75Pd-25Ag", 773%Z);
     ("EUROFER97", 723%Z);
     ("OPTIFER-IVb", 892%Z)].

(** The line written by
    [print('Warning: ... range [', T_min[A], '-', T_max[A], ']K')];
    [print] joins its arguments with single spaces. *)
Definition warning_line (lo hi : Z) : string :=
  "Warning: Temperature used out of the correlation range [ "
    +:+ pretty lo +:+ " - " +:+ pretty hi +:+ " ]K".

(** [D0[A][Q]*exp(-Ea[A][Q]*1000/(R*T))], evaluated left to right. *)
Definition arrhenius (A Q : string) (T : R) : result R :=
  d0A ← getitem D0 A;
  d0 ← getitem d0A Q;
  eaA ← getitem Ea A;
  ea ← getitem eaA Q;
  x ← float_div (- ea * 1000)%R (R_gas * T)%R;
  e ← math_exp x;
  Ok (d0 * e)%R.

(** The body of the last [try] block (Graham's approximation law). *)
Definition graham (A Q : string) (T : R) : result R :=
  D_H ← arrhenius A "H" T;
  mH ← getitem M "H";
  mQ ← getitem M Q;
  r ← float_div mH mQ;
  s ← math_sqrt r;
  Ok (D_H * s)%R.

(** The function body is written over the two range tables it reads, so
    that its dependence on them can be stated; [MetalDiff] below is the
    body at the tables [T_min] and [T_max] of the source. *)
Section Body.
Variables lower upper : gmap string Z.

(** The condition [((T_min[A] > T) or (T_max[A] < T)) and (W)]; [or] and
    [and] short-circuit, so [T_max[A]] is subscripted only when the first
    comparison is false. *)
Definition range_condition (A : string) (T : R) (W : bool) : result bool :=
  lo ← getitem lower A;
  c ← (if decide (T < IZR lo)%R then Ok true
       else hi ← getitem upper A; Ok (bool_decide (IZR hi < T)%R));
  Ok (c && W).

(** The first [try] block: what it prints, and how it ends. *)
Definition range_check (A : string) (T : R) (W : bool)
  : list string * result unit :=
  let body : result (list string) :=
    c ← range_condition A T W;
    if (c : bool) then
      lo ← getitem lower A;
      hi ← getitem upper A;
      Ok [warning_line lo hi]
    else Ok []
  in
  match body with
  | Ok out => (out, Ok ())
  | Raise (KeyError _) => ([], Raise (KeyError "Unsuported Alloy selected"))
  | Raise e => ([], Raise e)
  end.

(** The three [try] blocks in sequence: the console output and the
    outcome. *)
Definition MetalDiff_body (A Q : string) (T : R) (W : bool)
  : list string * result R :=
  match range_check A T W with
  | (out, Raise e) => (out, Raise e)
  | (out, Ok _) =>
      (out,
       except_all_pass (arrhenius A Q T)
         (except_KeyError_raise "Unsuported Isotope selected" (graham A Q T)))
  end.

End Body.

(** [MetalDiff(A, Q, T, W)]; the source's default [W = True] is passed
    explicitly here. *)
Definition MetalDiff (A Q : string) (T : R) (W : bool)
  : list string * result R :=
  MetalDiff_body T_min T_max A Q T W.

(** The self-test under [if (__name__ == '__main__')]:
    [D = MetalDiff('SS316','H', 700, W = False)]; what running the file
    as a script prints, and its outcome. *)
Definition main : list string * result R :=
  MetalDiff "SS316" "H" 700 false.

End DiffusionAlloys.

(** ** DiffusionGases.py *)

Module DiffusionGases.

(** Atomic weights [g/mol] *)
Definition M : gmap string R :=
  list_to_map
    [("H2", 2.01593%R);
     ("D2", 4.028204%R);
     ("He", 4.002598%R);
     ("N2", 28.01403%R);
     ("H2O", 18.01534%R);
     ("Kr", 83.800%R);
     ("Xe", 131.300%R);
     ("Air", 28.963%R);
     ("Ar", 39.948%R);
     ("SF6", 146.05%R);
     ("O2", 32.000%R);
     ("CO2", 44.010%R);
     ("CO", 28.020%R);
     ("N2O", 44.010%R);
     ("NH3", 17.030%R);
     ("SO2", 64.0638%R);
     ("Cl2", 70.90%R);
     ("Br2", 159.808%R)].

(** Atomic diffusion volume [cm^3] *)
Definition SIGMA_v : gmap string R :=
  list_to_map
    [("H2", 6.12%R);
     ("D2", 6.84%R);
     ("He", 2.67%R);
     ("N2", 18.5%R);
     ("H2O", 13.1%R);
     ("Kr", 24.5%R);
     ("Xe", 32.7%R);
     ("Air", 19.7%R);
     ("Ar", 16.2%R);
     ("SF6", 71.3%R);
     ("O2", 16.3%R);
     ("CO2", 26.9%R);
     ("CO", 18.0%R);
     ("N2O", 35.9%R);
     ("NH3", 20.7%R);
     ("SO2", 41.8%R);
     ("Cl2", 38.4%R);
     ("Br2", 69.0%R)].

(** [K = 0.0101325], for [P] in pascals. *)
Definition K : R := 0.0101325%R.

(** The expression of the [try] block,
    [K*( T**1.75 * (1/M[A] + 1/M[B])**(1/2) )
       / (P*(SIGMA_v[A]**(1/3) + SIGMA_v[B]**(1/3))**2)],
    evaluated left to right. *)
Definition fuller (A B : string) (T P : R) : result number :=
  t ← float_pow T 1.75;
  mA ← getitem M A;
  ia ← float_div 1 mA;
  mB ← getitem M B;
  ib ← float_div 1 mB;
  s ← float_pow (ia + ib) (1 / 2);
  let numerator := num_mul (Float K) (num_mul t s) in
  sA ← getitem SIGMA_v A;
  ca ← float_pow sA (1 / 3);
  sB ← getitem SIGMA_v B;
  cb ← float_pow sB (1 / 3);
  sq ← num_pow (num_add ca cb) 2;
  let denominator := num_mul (Float P) sq in
  num_div numerator denominator.

(** [DiffGas_AB(A, B, T, P)]. *)
Definition DiffGas_AB (A B : string) (T P : R) : result number :=
  except_KeyError_raise "Unsuported gas selected" (fuller A B T P).

(** The self-test under [if (__name__ == '__main__')]:
    [D = DiffGas_AB('HO','Air', 60+273, 1.0*101325)]; the outcome of
    running the file as a script. *)
Definition main : result number :=
  DiffGas_AB "HO" "Air" (60 + 273) (1.0 * 101325).

End DiffusionGases.

(** ** Vocabulary of the specification *)

Module Spec.
Import DiffusionAlloys.

(** The alloy identifiers of the repository. *)
Definition alloys : list string :=
  ["SS304"; "SS316"; "Alpha-Fe"; "75Pd-25Ag"; "EUROFER97"; "OPTIFER-IVb"].

(** [tbl[A][Q]] as an optional value, for the two coefficient tables. *)
Definition coefficient (tbl : gmap string (gmap string R)) (A Q : string)
  : option R :=
  row ← tbl !! A; row !! Q.

(** The pair (alloy, isotope) has a direct entry in both coefficient
    tables. *)
Definition tabulated (A Q : string) : Prop :=
  is_Some (coefficient D0 A Q) ∧ is_Some (coefficient Ea A Q).

(** The alloy is a key of the temperature-range table (both bounds). *)
Definition in_range_table (A : string) : Prop :=
  is_Some (T_min !! A) ∧ is_Some (T_max !! A).

(** The temperature lies outside the validated range [[lo, hi]]. *)
Definition out_of_range (lo hi : Z) (T : R) : Prop :=
  (T < IZR lo ∨ IZR hi < T)%R.

(** The species is a key of both gas property tables. *)
Definition gas_known (A : string) : Prop :=
  is_Some (DiffusionGases.M !! A) ∧ is_Some (DiffusionGases.SIGMA_v !! A).

(** The Arrhenius law [D0 * exp(-Ea*1000 / (R*T))] with [R = 8.314]. *)
Definition arrhenius_law (d0 ea T : R) : R :=
  (d0 * exp (- ea * 1000 / (8.314 * T)))%R.

(** The Fuller-Schettler-Giddings correlation with [K = 0.0101325]. *)
Definition fuller_law (mA mB sA sB T P : R) : R :=
  (0.0101325 * (Rpower T 1.75 * Rpower (1 / mA + 1 / mB) 0.5)
     / (P * (Rpower sA (1 / 3) + Rpower sB (1 / 3)) ^ 2))%R.

End Spec.

Import Spec.

(** ** Facts about the constant tables *)

(** Case analysis on a successful lookup in a table given by its list of
    entries. *)
Ltac table_entry H :=
  apply elem_of_list_to_map_2 in H;
  repeat (apply elem_of_cons in H as [H | H]; [simplify_eq |]);
  try (apply elem_of_nil in H; destruct H).

(** One step of the evaluation of a [result] computation, leaving the
    tables folded. *)
Ltac step := cbn [mbind result_bind num_add num_mul num_pow].

(** Case analysis on membership in a literal list of keys. *)
Ltac key_cases H :=
  repeat (apply elem_of_cons in H as [-> | H]);
  try (apply elem_of_nil in H; destruct H).

Section Tables.
Import DiffusionAlloys.

Lemma T_min_keys (A : string) : is_Some (T_min !! A) ↔ A ∈ alloys.
Proof.
  split.
  - intros [lo Hlo]. unfold T_min in Hlo. table_entry Hlo; set_solver.
  - intros HA. unfold alloys in HA. key_cases HA; by eexists.
Qed.

Lemma T_max_keys (A : string) : is_Some (T_max !! A) ↔ A ∈ alloys.
Proof.
  split.
  - intros [hi Hhi]. unfold T_max in Hhi. table_entry Hhi; set_solver.
  - intros HA. unfold alloys in HA. key_cases HA; by eexists.
Qed.

Lemma D0_keys (A : string) : is_Some (D0 !! A) ↔ A ∈ alloys.
Proof.
  split.
  - intros [row Hrow]. unfold D0 in Hrow. table_entry Hrow; set_solver.
  - intros HA. unfold alloys in HA. key_cases HA; by eexists.
Qed.

Lemma Ea_keys (A : string) : is_Some (Ea !! A) ↔ A ∈ alloys.
Proof.
  split.
  - intros [row Hrow]. unfold Ea in Hrow. table_entry Hrow; set_solver.
  - intros HA. unfold alloys in HA. key_cases HA; by eexists.
Qed.

Lemma in_range_table_alloys (A : string) : in_range_table A ↔ A ∈ alloys.
Proof.
  unfold in_range_table. rewrite T_min_keys, T_max_keys. tauto.
Qed.

Lemma coefficient_Some (tbl : gmap string (gmap string R)) A Q v :
  coefficient tbl A Q = Some v ↔
  ∃ row, tbl !! A = Some row ∧ row !! Q = Some v.
Proof.
  unfold coefficient. destruct (tbl !! A) as [row|]; simpl.
  - split; [by eauto | by intros (? & [= <-] & ?)].
  - split; [done | by intros (? & ? & ?)].
Qed.

(** The two coefficient tables have the same (alloy, isotope) keys. *)
Lemma D0_Ea_same_keys (A Q : string) :
  is_Some (coefficient D0 A Q) ↔ is_Some (coefficient Ea A Q).
Proof.
  split; intros [v Hv]; apply coefficient_Some in Hv as (row & Hrow & Hv).
  - unfold D0 in Hrow. table_entry Hrow; table_entry Hv; by eexists.
  - unfold Ea in Hrow. table_entry Hrow; table_entry Hv; by eexists.
Qed.

(** Every alloy has its ['H'] coefficients. *)
Lemma alloys_have_H (A : string) :
  A ∈ alloys → tabulated A "H".
Proof.
  intros HA. unfold alloys in HA. key_cases HA; split; by eexists.
Qed.

(** Atomic weights are positive. *)
Lemma M_positive (Q : string) (m : R) : M !! Q = Some m → (0 < m)%R.
Proof.
  intros Hm. unfold M in Hm. table_entry Hm; lra.
Qed.

End Tables.

(** ** Further facts about the alloy tables *)

Section Alloy_data.
Import DiffusionAlloys.

Lemma D0_positive (A Q : string) (d0 : R) :
  coefficient D0 A Q = Some d0 → (0 < d0)%R.
Proof.
  intros (row & Hrow & Hd)%coefficient_Some.
  unfold D0 in Hrow. table_entry Hrow; table_entry Hd; lra.
Qed.

Lemma Ea_positive (A Q : string) (ea : R) :
  coefficient Ea A Q = Some ea → (0 < ea)%R.
Proof.
  intros (row & Hrow & He)%coefficient_Some.
  unfold Ea in Hrow. table_entry Hrow; table_entry He; lra.
Qed.

(** Every isotope with coefficients has an atomic weight. *)
Lemma tabulated_has_weight (A Q : string) :
  is_Some (coefficient D0 A Q) → is_Some (M !! Q).
Proof.
  intros [d (row & Hrow & Hd)%coefficient_Some].
  unfold D0 in Hrow. table_entry Hrow; table_entry Hd; by eexists.
Qed.

(** ['H'] is the lightest isotope of the weight table. *)
Lemma M_heavier_than_H (Q : string) (m : R) :
  M !! Q = Some m → Q ≠ "H" → (1.00794 < m)%R.
Proof.
  intros Hm HQ. unfold M in Hm. table_entry Hm; done || lra.
Qed.

Lemma M_H : M !! "H" = Some 1.00794%R.
Proof. reflexivity. Qed.

End Alloy_data.

(** ** The Arrhenius law as a function of the temperature *)

Section Arrhenius_law.

Lemma arrhenius_exponent (e T : R) :
  T ≠ 0%R → (- e * 1000 / (8.314 * T) = - (e * 1000 / 8.314) * / T)%R.
Proof. intros HT. field. lra. Qed.

Lemma arrhenius_law_positive (c e T : R) :
  (0 < c)%R → (0 < arrhenius_law c e T)%R.
Proof.
  intros Hc. unfold arrhenius_law.
  apply Rmult_lt_0_compat; [done | apply exp_pos].
Qed.

Lemma arrhenius_law_below (c e T : R) :
  (0 < c)%R → (0 < e)%R → (0 < T)%R → (arrhenius_law c e T < c)%R.
Proof.
  intros Hc He HT. unfold arrhenius_law.
  rewrite arrhenius_exponent by lra.
  assert (0 < e * 1000 / 8.314 * / T)%R as Hpos.
  { apply Rmult_lt_0_compat; [lra | by apply Rinv_0_lt_compat]. }
  assert (exp (- (e * 1000 / 8.314) * / T) < 1)%R as Hlt.
  { rewrite <- exp_0. apply exp_increasing. lra. }
  nra.
Qed.

End Arrhenius_law.

(** ** Facts about the Python arithmetic *)

Section Numbers.

Lemma getitem_Some {V : Type} (d : gmap string V) k v :
  d !! k = Some v → getitem d k = Ok v.
Proof. intros H. unfold getitem. by rewrite H. Qed.

Lemma getitem_None {V : Type} (d : gmap string V) k :
  d !! k = None → getitem d k = Raise (KeyError k).
Proof. intros H. unfold getitem. by rewrite H. Qed.

Lemma float_div_nonzero (x y : R) : y ≠ 0%R → float_div x y = Ok (x / y)%R.
Proof. intros H. unfold float_div. by rewrite decide_False. Qed.

Lemma float_div_zero (x : R) : float_div x 0 = Raise ZeroDivisionError.
Proof. unfold float_div. by rewrite decide_True. Qed.

(** Integers below the largest double, by computation. *)
Lemma IZR_le_DBL_MAX (z : Z) :
  (z <=? 2 ^ 1024 - 2 ^ 971)%Z = true → (IZR z <= DBL_MAX)%R.
Proof. intros H. apply IZR_le. by apply Z.leb_le. Qed.

Lemma pow10_IZR (n : nat) : (10 ^ n)%R = IZR (10 ^ Z.of_nat n).
Proof. by rewrite <- pow_IZR. Qed.

Lemma DBL_MAX_ge_1 : (1 <= DBL_MAX)%R.
Proof. by apply IZR_le_DBL_MAX. Qed.

Lemma DBL_MAX_ge_pow10_308 : (10 ^ 308 <= DBL_MAX)%R.
Proof. rewrite pow10_IZR. apply IZR_le_DBL_MAX. by vm_compute. Qed.

Lemma DBL_MAX_lt_pow10_350 : (DBL_MAX < 10 ^ 350)%R.
Proof.
  rewrite pow10_IZR. unfold DBL_MAX. apply IZR_lt.
  apply Z.ltb_lt. by vm_compute.
Qed.

(** [math.exp] of a non-positive argument does not overflow. *)
Lemma math_exp_nonpositive (x : R) : (x <= 0)%R → math_exp x = Ok (exp x).
Proof.
  intros Hx. unfold math_exp. rewrite decide_False; [done |].
  pose proof DBL_MAX_ge_1.
  assert (exp x <= 1)%R; [| lra].
  rewrite <- exp_0. destruct Hx as [Hx | ->]; [| lra].
  by apply Rlt_le, exp_increasing.
Qed.

Lemma math_exp_cases (x : R) :
  math_exp x = Ok (exp x) ∨ math_exp x = Raise OverflowError.
Proof. unfold math_exp. case_decide; auto. Qed.

Lemma Rpower_positive (x y : R) : (0 < Rpower x y)%R.
Proof. unfold Rpower. apply exp_pos. Qed.

Lemma Rpower_square (x : R) : (0 < x)%R → Rpower x 2 = (x ^ 2)%R.
Proof.
  intros Hx. rewrite <- (Rpower_pow 2 x Hx). reflexivity.
Qed.

(** A power with an exponent between 0 and 2 is bounded by the square of
    any bound [b >= 1] of its base. *)
Lemma Rpower_bound (x y b : R) :
  (0 < x <= b)%R → (1 <= b)%R → (0 <= y <= 2)%R → (Rpower x y <= b ^ 2)%R.
Proof.
  intros Hx Hb Hy. rewrite <- Rpower_square by lra.
  apply Rle_trans with (Rpower b y).
  - apply Rle_Rpower_l; lra.
  - apply Rle_Rpower; lra.
Qed.

(** [(10^n) ** 1.75 = 10^m] when [7 n = 4 m]. *)
Lemma Rpower_pow10 (n m : nat) :
  7 * n = 4 * m → Rpower (10 ^ n) 1.75 = (10 ^ m)%R.
Proof.
  intros Hnm.
  rewrite <- (Rpower_pow n 10), <- (Rpower_pow m 10) by lra.
  rewrite Rpower_mult. f_equal.
  apply (f_equal INR) in Hnm. rewrite !mult_INR in Hnm.
  simpl in Hnm. lra.
Qed.

(** [T ** 1.75] stays within the doubles for [0 < T <= 10^176]. *)
Lemma Rpower_1_75_in_range (T : R) :
  (0 < T <= 10 ^ 176)%R → (Rpower T 1.75 <= DBL_MAX)%R.
Proof.
  intros HT. apply Rle_trans with (10 ^ 308)%R;
    [| apply DBL_MAX_ge_pow10_308].
  rewrite <- (Rpower_pow10 176 308) by done.
  apply Rle_Rpower_l; lra.
Qed.

Lemma in_float_range_ok (v : R) :
  (0 <= v <= DBL_MAX)%R → in_float_range v = Ok (Float v).
Proof.
  intros Hv. unfold in_float_range.
  rewrite Rabs_pos_eq by lra. by rewrite decide_False by lra.
Qed.

Lemma float_pow_positive (x y : R) :
  (0 < x)%R → y ≠ 0%R → (Rpower x y <= DBL_MAX)%R →
  float_pow x y = Ok (Float (Rpower x y)).
Proof.
  intros Hx Hy Hmax. unfold float_pow.
  rewrite decide_False by done.
  rewrite decide_False by lra.
  rewrite decide_True by done.
  apply in_float_range_ok. pose proof (Rpower_positive x y). lra.
Qed.

Lemma float_pow_overflow (x y : R) :
  (0 < x)%R → y ≠ 0%R → (DBL_MAX < Rpower x y)%R →
  float_pow x y = Raise OverflowError.
Proof.
  intros Hx Hy Hmax. unfold float_pow, in_float_range.
  rewrite decide_False by done.
  rewrite decide_False by lra.
  rewrite decide_True by done.
  pose proof (Rpower_positive x y).
  rewrite Rabs_pos_eq by lra. by rewrite decide_True.
Qed.

Lemma float_pow_zero (y : R) : (0 < y)%R → float_pow 0 y = Ok (Float 0).
Proof.
  intros Hy. unfold float_pow.
  rewrite decide_False by lra. rewrite decide_True by done.
  by rewrite decide_False by lra.
Qed.

Lemma not_integer_1_75 : ¬ is_integer 1.75.
Proof.
  unfold is_integer. intros H.
  assert (IZR (4 * Int_part 1.75) = IZR 7) as H4.
  { rewrite mult_IZR, H. lra. }
  apply eq_IZR in H4. lia.
Qed.

(** [T ** 1.75] for a negative [T] within the doubles' range of the power:
    a complex number. *)
Lemma float_pow_negative (T : R) :
  (- 10 ^ 176 <= T)%R → (T < 0)%R →
  ∃ re im : R, float_pow T 1.75 = Ok (Complex re im).
Proof.
  intros Hlo HT. unfold float_pow.
  rewrite decide_False by lra. rewrite decide_False by lra.
  rewrite decide_False by lra.
  rewrite decide_False by apply not_integer_1_75.
  unfold complex_pow. rewrite decide_False by lra. cbn [real imag].
  rewrite decide_False by (intros [? _]; lra).
  replace (T * T + 0 * 0)%R with (- T * - T)%R by ring.
  rewrite sqrt_square by lra.
  rewrite decide_False; [by eauto |].
  apply Rle_not_lt, Rpower_1_75_in_range. lra.
Qed.

(** [T ** 1.75] raises nothing for [|T| <= 10^176]. *)
Lemma float_pow_1_75_total (T : R) :
  (Rabs T <= 10 ^ 176)%R → ∃ t, float_pow T 1.75 = Ok t.
Proof.
  intros HT.
  destruct (Rtotal_order T 0) as [Hneg | [-> | Hpos]].
  - rewrite Rabs_left in HT by done.
    destruct (float_pow_negative T) as (re & im & ->); [lra | done | eauto].
  - rewrite float_pow_zero by lra. eauto.
  - rewrite Rabs_pos_eq in HT by lra.
    rewrite float_pow_positive; [eauto | done | lra |].
    apply Rpower_1_75_in_range. lra.
Qed.

(** [(10^200) ** 1.75] is a range error. *)
Lemma float_pow_1e200 : float_pow (10 ^ 200) 1.75 = Raise OverflowError.
Proof.
  apply float_pow_overflow; [apply pow_lt; lra | lra |].
  rewrite (Rpower_pow10 200 350) by done. apply DBL_MAX_lt_pow10_350.
Qed.

(** Division by a float: it raises exactly when the float is zero. *)
Lemma num_div_zero (a : number) : num_div a (Float 0) = Raise ZeroDivisionError.
Proof.
  destruct a as [x | re im]; simpl.
  - by rewrite float_div_zero.
  - by rewrite decide_True.
Qed.

Lemma num_div_nonzero (a : number) (y : R) :
  y ≠ 0%R → ∃ v, num_div a (Float y) = Ok v.
Proof.
  intros Hy. destruct a as [x | re im]; simpl.
  - rewrite float_div_nonzero by done. simpl. eauto.
  - rewrite decide_False by (intros [? _]; done). eauto.
Qed.

End Numbers.


(** ** The stages of [MetalDiff] *)

Section Stages.
Import DiffusionAlloys.

(** With the alloy in both range tables the first [try] block ends
    normally; it prints the warning exactly when [W] is set and the
    temperature is out of range. *)
Lemma range_check_present lower upper A T W lo hi :
  lower !! A = Some lo → upper !! A = Some hi →
  range_check lower upper A T W =
    (if bool_decide (W = true ∧ out_of_range lo hi T)
     then [warning_line lo hi] else [], Ok ()).
Proof.
  intros Hlo Hhi. unfold range_check, range_condition, out_of_range.
  rewrite (getitem_Some _ _ _ Hlo), (getitem_Some _ _ _ Hhi).
  case_bool_decide as Hw.
  - destruct Hw as [-> Hout]. cbn.
    destruct (decide (T < IZR lo)%R) as [Hlt | Hge]; cbn; [done |].
    rewrite bool_decide_eq_true_2 by tauto. done.
  - cbn. destruct (decide (T < IZR lo)%R) as [Hlt | Hge]; cbn.
    + destruct W; [tauto | done].
    + case_bool_decide as Hgt; destruct W; cbn; tauto || done.
Qed.

(** With the alloy missing from the lower-bound table the first subscript
    fails, and the handler turns it into the alloy error. *)
Lemma range_check_absent lower upper A T W :
  lower !! A = None →
  range_check lower upper A T W =
    ([], Raise (KeyError "Unsuported Alloy selected")).
Proof.
  intros Hlo. unfold range_check, range_condition.
  by rewrite (getitem_None _ _ Hlo).
Qed.

(** The direct evaluation of a tabulated pair, up to the call of
    [math.exp]. *)
Lemma arrhenius_exp A Q T d0 ea :
  coefficient D0 A Q = Some d0 → coefficient Ea A Q = Some ea →
  T ≠ 0%R →
  arrhenius A Q T =
    (e ← math_exp (- ea * 1000 / (8.314 * T)); Ok (d0 * e)%R).
Proof.
  intros (r0 & H0 & Hd0)%coefficient_Some (re & He & Hea)%coefficient_Some HT.
  unfold arrhenius, R_gas.
  rewrite (getitem_Some _ _ _ H0), (getitem_Some _ _ _ He).
  cbn [mbind result_bind].
  rewrite (getitem_Some _ _ _ Hd0), (getitem_Some _ _ _ Hea).
  cbn [mbind result_bind].
  rewrite float_div_nonzero by lra. done.
Qed.

Lemma arrhenius_tabulated A Q T d0 ea :
  coefficient D0 A Q = Some d0 → coefficient Ea A Q = Some ea →
  (0 < T)%R → arrhenius A Q T = Ok (arrhenius_law d0 ea T).
Proof.
  intros Hd He HT. rewrite (arrhenius_exp _ _ _ _ _ Hd He) by lra.
  rewrite math_exp_nonpositive; [done |].
  pose proof (Ea_positive _ _ _ He) as Hea.
  rewrite arrhenius_exponent by lra.
  assert (0 < ea * 1000 / 8.314 * / T)%R.
  { apply Rmult_lt_0_compat; [lra | by apply Rinv_0_lt_compat]. }
  lra.
Qed.

(** At a negative temperature the exponent is positive, and [math.exp]
    may overflow. *)
Lemma arrhenius_nonzero A Q T d0 ea :
  coefficient D0 A Q = Some d0 → coefficient Ea A Q = Some ea →
  T ≠ 0%R →
  arrhenius A Q T = Ok (arrhenius_law d0 ea T) ∨
  arrhenius A Q T = Raise OverflowError.
Proof.
  intros Hd He HT. rewrite (arrhenius_exp _ _ _ _ _ Hd He) by done.
  destruct (math_exp_cases (- ea * 1000 / (8.314 * T))) as [-> | ->];
    [by left | by right].
Qed.

Lemma arrhenius_zero A Q :
  tabulated A Q → arrhenius A Q 0 = Raise ZeroDivisionError.
Proof.
  intros [[d0 (r0 & H0 & Hd0)%coefficient_Some]
          [ea (re & He & Hea)%coefficient_Some]].
  unfold arrhenius.
  rewrite (getitem_Some _ _ _ H0), (getitem_Some _ _ _ He). simpl.
  rewrite (getitem_Some _ _ _ Hd0), (getitem_Some _ _ _ Hea). simpl.
  by rewrite Rmult_0_r, float_div_zero.
Qed.

Lemma arrhenius_untabulated A Q T :
  ¬ tabulated A Q → ∃ k, arrhenius A Q T = Raise (KeyError k).
Proof.
  intros Hno. unfold arrhenius, getitem.
  destruct (D0 !! A) as [r0|] eqn:H0; simpl; [| by eauto].
  destruct (r0 !! Q) as [d0|] eqn:Hd0; simpl; [| by eauto].
  destruct (Ea !! A) as [re|] eqn:He; simpl; [| by eauto].
  destruct (re !! Q) as [ea|] eqn:Hea; simpl; [| by eauto].
  destruct Hno. unfold tabulated, coefficient. rewrite H0, He. simpl.
  rewrite Hd0, Hea. eauto.
Qed.

(** [sqrt(M['H']/M[Q])] is evaluated without error when both weights are
    tabulated. *)
Lemma graham_factor (Q : string) (mH mQ : R) :
  M !! "H" = Some mH → M !! Q = Some mQ →
  (r ← float_div mH mQ; math_sqrt r) = Ok (sqrt (mH / mQ)).
Proof.
  intros HH%M_positive HQ%M_positive.
  rewrite float_div_nonzero by lra. simpl. unfold math_sqrt.
  rewrite decide_False; [done |].
  apply Rle_not_lt, Rlt_le, Rdiv_lt_0_compat; lra.
Qed.

(** Outcome of the fallback stage when the ['H'] coefficients and both
    atomic weights are tabulated. *)
Lemma graham_tabulated A Q T d0H eaH mH mQ :
  coefficient D0 A "H" = Some d0H → coefficient Ea A "H" = Some eaH →
  M !! "H" = Some mH → M !! Q = Some mQ → (0 < T)%R →
  graham A Q T = Ok (arrhenius_law d0H eaH T * sqrt (mH / mQ))%R.
Proof.
  intros Hd He HH HQ HT. unfold graham.
  rewrite (arrhenius_tabulated _ _ _ _ _ Hd He HT). simpl.
  rewrite (getitem_Some _ _ _ HH). simpl.
  rewrite (getitem_Some _ _ _ HQ). simpl.
  pose proof (graham_factor Q mH mQ HH HQ) as Hf.
  destruct (float_div mH mQ) as [r|e]; simpl in *; [| done].
  by rewrite Hf.
Qed.

(** Outcome of the fallback stage when the isotope has no atomic weight. *)
Lemma graham_no_weight A Q T :
  tabulated A "H" → M !! Q = None → (0 < T)%R →
  graham A Q T = Raise (KeyError Q).
Proof.
  intros [[d0 Hd] [ea He]] HQ HT. unfold graham.
  rewrite (arrhenius_tabulated _ _ _ _ _ Hd He HT). simpl.
  by rewrite (getitem_None _ _ HQ).
Qed.

(** At a temperature that is not zero the fallback stage ends in the
    overflow of [math.exp], or it has the ['H'] value and its outcome is
    that of the subscript [M[Q]]. *)
Lemma graham_nonzero A Q T :
  tabulated A "H" → T ≠ 0%R →
  graham A Q T = Raise OverflowError ∨
  ∃ dH : R,
    graham A Q T =
      match M !! Q with
      | Some mQ => Ok (dH * sqrt (1.00794 / mQ))%R
      | None => Raise (KeyError Q)
      end.
Proof.
  intros [[d0 Hd] [ea He]] HT. unfold graham.
  destruct (arrhenius_nonzero _ _ _ _ _ Hd He HT) as [-> | ->];
    [| by left].
  right. exists (arrhenius_law d0 ea T). cbn [mbind result_bind].
  rewrite (getitem_Some _ _ _ M_H). cbn [mbind result_bind].
  destruct (M !! Q) as [mQ|] eqn:HQ;
    [rewrite (getitem_Some _ _ _ HQ) | by rewrite (getitem_None _ _ HQ)].
  cbn [mbind result_bind].
  pose proof (graham_factor Q _ mQ M_H HQ) as Hf.
  destruct (float_div 1.00794 mQ) as [r|e]; simpl in *; [| done].
  by rewrite Hf.
Qed.

(** At [T = 0] the fallback stage divides by zero before it looks at the
    isotope. *)
Lemma graham_zero A Q :
  tabulated A "H" → graham A Q 0 = Raise ZeroDivisionError.
Proof.
  intros HH. unfold graham. by rewrite (arrhenius_zero _ _ HH).
Qed.

Lemma tabulated_in_range_table A Q :
  is_Some (coefficient D0 A Q) ∨ is_Some (coefficient Ea A Q) →
  in_range_table A.
Proof.
  intros H. apply in_range_table_alloys.
  destruct H as [[v (row & Hrow & _)%coefficient_Some]
                |[v (row & Hrow & _)%coefficient_Some]].
  - apply D0_keys. by eexists.
  - apply Ea_keys. by eexists.
Qed.

(** Once the range check has passed, the outcome is that of the two
    lookup stages. *)
Lemma MetalDiff_body_present lower upper A Q T W :
  is_Some (lower !! A) → is_Some (upper !! A) →
  (MetalDiff_body lower upper A Q T W).2 =
    except_all_pass (arrhenius A Q T)
      (except_KeyError_raise "Unsuported Isotope selected" (graham A Q T)).
Proof.
  intros [lo Hlo] [hi Hhi]. unfold MetalDiff_body.
  by rewrite (range_check_present _ _ _ _ _ _ _ Hlo Hhi).
Qed.

(** At [T = 0], with the alloy in the range table, the outcome is the
    division error of the fallback stage, for every isotope. *)
Lemma MetalDiff_zero (A Q : string) (W : bool) :
  in_range_table A → (MetalDiff A Q 0 W).2 = Raise ZeroDivisionError.
Proof.
  intros HA. pose proof HA as [Hlo Hhi].
  assert (tabulated A "H") as HH
    by by apply alloys_have_H, in_range_table_alloys.
  unfold MetalDiff. rewrite MetalDiff_body_present by done.
  rewrite graham_zero by done.
  destruct (arrhenius A Q 0) as [v|e] eqn:Hdirect; simpl; [| done].
  destruct (decide (tabulated A Q)) as [Ht | Hno].
  - by rewrite arrhenius_zero in Hdirect.
  - destruct (arrhenius_untabulated A Q 0 Hno) as [k Hk]. congruence.
Qed.

End Stages.

(** ** Outcomes of [MetalDiff] *)

Section Outcomes.
Import DiffusionAlloys.

(** With the alloy in the range table and the isotope in the weight table,
    the value is an Arrhenius law in [T] with positive constants: the
    alloy's own coefficients for a tabulated pair, the ['H'] coefficients
    scaled by Graham's factor otherwise. *)
Lemma MetalDiff_supported_form (A Q : string) :
  in_range_table A → is_Some (M !! Q) →
  ∃ c e : R, (0 < c)%R ∧ (0 < e)%R ∧
    ∀ (T : R) (W : bool), (0 < T)%R →
      (MetalDiff A Q T W).2 = Ok (arrhenius_law c e T).
Proof.
  intros HA [mQ HQ]. pose proof HA as [Hlo Hhi].
  destruct (decide (tabulated A Q)) as [[[d0 Hd] [ea He]] | Hno].
  - exists d0, ea.
    split; [by eapply D0_positive |]. split; [by eapply Ea_positive |].
    intros T W HT. unfold MetalDiff.
    rewrite MetalDiff_body_present by done.
    by rewrite (arrhenius_tabulated _ _ _ _ _ Hd He HT).
  - destruct (alloys_have_H A) as [[d0 Hd] [ea He]];
      [by apply in_range_table_alloys |].
    pose proof (M_positive _ _ HQ) as HmQ.
    exists (d0 * sqrt (1.00794 / mQ))%R, ea.
    split.
    { apply Rmult_lt_0_compat; [by eapply D0_positive |].
      apply sqrt_lt_R0, Rdiv_lt_0_compat; lra. }
    split; [by eapply Ea_positive |].
    intros T W HT. unfold MetalDiff.
    rewrite MetalDiff_body_present by done.
    destruct (arrhenius_untabulated A Q T Hno) as [k ->].
    cbn [except_all_pass].
    rewrite (graham_tabulated _ _ _ _ _ _ _ Hd He M_H HQ HT).
    cbn [except_KeyError_raise]. f_equal. unfold arrhenius_law. ring.
Qed.

(** With the alloy in the range table and no atomic weight for the
    isotope, the outcome at a positive temperature is the isotope error. *)
Lemma MetalDiff_no_weight (A Q : string) (T : R) (W : bool) :
  in_range_table A → M !! Q = None → (0 < T)%R →
  (MetalDiff A Q T W).2 = Raise (KeyError "Unsuported Isotope selected").
Proof.
  intros HA HQ HT. pose proof HA as [Hlo Hhi].
  assert (¬ tabulated A Q) as Hno.
  { intros [Hd%tabulated_has_weight _]. rewrite HQ in Hd. by destruct Hd. }
  unfold MetalDiff. rewrite MetalDiff_body_present by done.
  destruct (arrhenius_untabulated A Q T Hno) as [k ->].
  cbn [except_all_pass].
  rewrite graham_no_weight; [done | | done | done].
  by apply alloys_have_H, in_range_table_alloys.
Qed.

(** With the alloy missing from the range table, the call ends in the
    first [try] block. *)
Lemma MetalDiff_not_in_range_table (A Q : string) (T : R) (W : bool) :
  ¬ in_range_table A →
  MetalDiff A Q T W = ([], Raise (KeyError "Unsuported Alloy selected")).
Proof.
  intros Hno. unfold MetalDiff, MetalDiff_body.
  rewrite range_check_absent; [done |].
  apply eq_None_not_Some. intros HA%T_min_keys.
  by apply Hno, in_range_table_alloys.
Qed.

(** What the call prints, with the alloy in the range table. *)
Lemma MetalDiff_output (A Q : string) (T : R) (W : bool) (lo hi : Z) :
  T_min !! A = Some lo → T_max !! A = Some hi →
  (MetalDiff A Q T W).1 =
    if bool_decide (W = true ∧ out_of_range lo hi T)
    then [warning_line lo hi] else [].
Proof.
  intros Hlo Hhi. unfold MetalDiff, MetalDiff_body.
  by rewrite (range_check_present _ _ _ _ _ _ _ Hlo Hhi).
Qed.

(** With the alloy in the range table and a temperature that is not
    zero, the call returns a value, or ends in the overflow of
    [math.exp], or in the isotope error. *)
Lemma MetalDiff_nonzero_outcomes (A Q : string) (T : R) (W : bool) :
  in_range_table A → T ≠ 0%R →
  (∃ d : R, (MetalDiff A Q T W).2 = Ok d) ∨
  (MetalDiff A Q T W).2 = Raise OverflowError ∨
  (MetalDiff A Q T W).2 = Raise (KeyError "Unsuported Isotope selected").
Proof.
  intros HA HT. pose proof HA as [Hlo Hhi].
  assert (tabulated A "H") as HH
    by by apply alloys_have_H, in_range_table_alloys.
  unfold MetalDiff. rewrite MetalDiff_body_present by done.
  assert (arrhenius A Q T = Raise OverflowError ∨
          (∃ d, arrhenius A Q T = Ok d) ∨
          (∃ k, arrhenius A Q T = Raise (KeyError k))) as Hdirect.
  { destruct (decide (tabulated A Q)) as [[[d0 Hd] [ea He]] | Hno].
    - destruct (arrhenius_nonzero _ _ _ _ _ Hd He HT) as [-> | ->]; eauto.
    - right; right. by apply arrhenius_untabulated. }
  destruct Hdirect as [-> | [[d ->] | [k ->]]]; cbn [except_all_pass];
    [| by eauto |].
  - (* the overflow of the direct stage is swallowed *)
    destruct (graham_nonzero A Q T HH HT) as [-> | [dH ->]];
      [by right; left |].
    destruct (M !! Q); [left; by eexists | by right; right].
  - destruct (graham_nonzero A Q T HH HT) as [-> | [dH ->]];
      [by right; left |].
    destruct (M !! Q); [left; by eexists | by right; right].
Qed.

End Outcomes.

(** ** Properties of [MetalDiff] *)

Section MetalDiff_properties.
Import DiffusionAlloys.

(** C8: the coefficient tables [D0] and [Ea] have the same (alloy, isotope)
    key pairs, and every alloy key of [D0] or of [Ea] is a key of both
    range tables [T_min] and [T_max]. *)
Theorem tables_consistent :
  (∀ A Q : string,
     is_Some (coefficient D0 A Q) ↔ is_Some (coefficient Ea A Q)) ∧
  (∀ A : string,
     is_Some (D0 !! A) ∨ is_Some (Ea !! A) →
     is_Some (T_min !! A) ∧ is_Some (T_max !! A)).
Proof.
  split; [apply D0_Ea_same_keys |].
  intros A HA. rewrite T_min_keys, T_max_keys.
  destruct HA as [HA%D0_keys | HA%Ea_keys]; done.
Qed.

(** C1: for a pair (alloy, isotope) with a direct entry in both coefficient
    tables and a temperature [T > 0], [MetalDiff] returns
    [D0[A][Q] * exp(-Ea[A][Q]*1000 / (8.314*T))], inside the validated range
    and outside of it; the console receives the warning line when [W] is
    set and [T] is out of range, and nothing otherwise. *)
Theorem MetalDiff_direct (A Q : string) (T : R) (W : bool) (d0 ea : R) :
  coefficient D0 A Q = Some d0 →
  coefficient Ea A Q = Some ea →
  (0 < T)%R →
  (MetalDiff A Q T W).2 = Ok (d0 * exp (- ea * 1000 / (8.314 * T)))%R ∧
  ∃ lo hi : Z,
    T_min !! A = Some lo ∧ T_max !! A = Some hi ∧
    (MetalDiff A Q T W).1 =
      if bool_decide (W = true ∧ out_of_range lo hi T)
      then [warning_line lo hi] else [].
Proof.
  intros Hd He HT.
  destruct (tabulated_in_range_table A Q) as [[lo Hlo] [hi Hhi]];
    [left; by eexists |].
  unfold MetalDiff, MetalDiff_body.
  rewrite (range_check_present _ _ _ _ _ _ _ Hlo Hhi). simpl.
  rewrite (arrhenius_tabulated _ _ _ _ _ Hd He) by lra.
  split; [done | by exists lo, hi].
Qed.

(** C3: for an alloy with ['H'] coefficients, an isotope [Q] without a
    direct entry for that alloy but with an atomic weight, and [T > 0],
    [MetalDiff] returns [D_H * sqrt(M['H'] / M[Q])] where [D_H] is the
    Arrhenius value of the alloy's ['H'] coefficients. *)
Theorem MetalDiff_graham (A Q : string) (T : R) (W : bool)
    (d0H eaH mH mQ : R) :
  coefficient D0 A "H" = Some d0H →
  coefficient Ea A "H" = Some eaH →
  ¬ tabulated A Q →
  M !! "H" = Some mH →
  M !! Q = Some mQ →
  (0 < T)%R →
  (MetalDiff A Q T W).2 =
    Ok (d0H * exp (- eaH * 1000 / (8.314 * T)) * sqrt (mH / mQ))%R.
Proof.
  intros Hd He Hno HH HQ HT.
  destruct (tabulated_in_range_table A "H") as [Hlo Hhi];
    [left; by eexists |].
  unfold MetalDiff. rewrite MetalDiff_body_present by done.
  destruct (arrhenius_untabulated A Q T Hno) as [k ->]. simpl.
  rewrite (graham_tabulated _ _ _ _ _ _ _ Hd He HH HQ) by lra.
  done.
Qed.

(** C4: for an alloy that is not a key of the range table, [MetalDiff]
    fails with the alloy error for every isotope, temperature and value
    of [W]; nothing is printed and no value is returned. *)
Theorem MetalDiff_unsupported_alloy (A Q : string) (T : R) (W : bool) :
  ¬ in_range_table A →
  MetalDiff A Q T W = ([], Raise (KeyError "Unsuported Alloy selected")).
Proof.
  intros Hno. unfold MetalDiff, MetalDiff_body.
  rewrite range_check_absent; [done |].
  apply eq_None_not_Some. intros HA%T_min_keys.
  by apply Hno, in_range_table_alloys.
Qed.

(** C5, amended: for an alloy in the range table the alloy error is never
    raised, at any stage; and when moreover the isotope has no direct
    entry for the alloy and no atomic weight, and [T > 0], [MetalDiff]
    fails with the isotope error. *)
Theorem MetalDiff_unsupported_isotope (A Q : string) (T : R) (W : bool) :
  in_range_table A →
  (MetalDiff A Q T W).2 ≠ Raise (KeyError "Unsuported Alloy selected") ∧
  (¬ tabulated A Q → M !! Q = None → (0 < T)%R →
   (MetalDiff A Q T W).2 = Raise (KeyError "Unsuported Isotope selected")).
Proof.
  intros HA. pose proof HA as [Hlo Hhi].
  unfold MetalDiff. rewrite MetalDiff_body_present by done.
  split.
  - destruct (arrhenius A Q T) as [v|e]; simpl; [done |].
    destruct (graham A Q T) as [v|[k | | |]]; simpl; done.
  - intros Hno HQ HT.
    destruct (arrhenius_untabulated A Q T Hno) as [k ->]. simpl.
    rewrite graham_no_weight; [done | | done | lra].
    by apply alloys_have_H, in_range_table_alloys.
Qed.

(** C7: for an alloy in the range table and [T > 0], the outcome of
    [MetalDiff] (value or exception) is the same for both values of [W],
    and it is the same whatever validated range is tabulated for the
    alloy, so whether or not [T] lies inside it. *)
Theorem MetalDiff_warning_independent (A Q : string) (T : R) (W : bool) :
  in_range_table A →
  (0 < T)%R →
  (∀ W' : bool, (MetalDiff A Q T W').2 = (MetalDiff A Q T W).2) ∧
  (∀ (lower upper : gmap string Z) (W' : bool),
     is_Some (lower !! A) → is_Some (upper !! A) →
     (MetalDiff_body lower upper A Q T W').2 = (MetalDiff A Q T W).2).
Proof.
  intros [Hlo Hhi] _. unfold MetalDiff. split.
  - intros W'. by rewrite !MetalDiff_body_present.
  - intros lower upper W' Hl Hu. by rewrite !MetalDiff_body_present.
Qed.

(** C9: for an alloy in the range table and [T = 0], [MetalDiff] fails
    with [ZeroDivisionError] for every isotope: when the pair is directly
    tabulated the direct evaluation divides by zero, the bare [except]
    swallows that, and the fallback stage divides by zero again, where
    only [KeyError] is handled. *)
Theorem MetalDiff_zero_temperature (A Q : string) (W : bool) :
  in_range_table A →
  (MetalDiff A Q 0 W).2 = Raise ZeroDivisionError ∧
  (tabulated A Q → arrhenius A Q 0 = Raise ZeroDivisionError) ∧
  graham A Q 0 = Raise ZeroDivisionError.
Proof.
  intros HA. split; [by apply MetalDiff_zero |].
  split; [apply arrhenius_zero |].
  by apply graham_zero, alloys_have_H, in_range_table_alloys.
Qed.

End MetalDiff_properties.

(** ** Further properties of [MetalDiff] *)

Section MetalDiff_further.
Import DiffusionAlloys.

(** X1: at a temperature [T > 0], [MetalDiff] returns a value exactly when
    the alloy is a key of the range table and the isotope is a key of the
    weight table [M]: every alloy supports the four isotopes H, D, T, He,
    by a direct entry or by Graham's law. *)
Theorem MetalDiff_returns_iff (A Q : string) (T : R) (W : bool) :
  (0 < T)%R →
  (∃ d : R, (MetalDiff A Q T W).2 = Ok d) ↔
  in_range_table A ∧ is_Some (M !! Q).
Proof.
  intros HT. split.
  - intros [d Hd].
    destruct (decide (in_range_table A)) as [HA | HA];
      [| by rewrite MetalDiff_not_in_range_table in Hd].
    split; [done |].
    destruct (M !! Q) as [m|] eqn:HQ; [by eexists |].
    rewrite MetalDiff_no_weight in Hd; [done | done | done | lra].
  - intros [HA HQ].
    destruct (MetalDiff_supported_form A Q HA HQ) as (c & e & _ & _ & Hval).
    eexists. apply Hval. lra.
Qed.

(** X2: at a temperature [T > 0], [MetalDiff] fails with the isotope
    error exactly when the alloy is a key of the range table and the
    isotope is not a key of the weight table [M]. *)
Theorem MetalDiff_isotope_error_iff (A Q : string) (T : R) (W : bool) :
  (0 < T)%R →
  (MetalDiff A Q T W).2 = Raise (KeyError "Unsuported Isotope selected") ↔
  in_range_table A ∧ M !! Q = None.
Proof.
  intros HT. split.
  - intros Herr.
    destruct (decide (in_range_table A)) as [HA | HA];
      [| by rewrite MetalDiff_not_in_range_table in Herr].
    split; [done |].
    destruct (M !! Q) as [m|] eqn:HQ; [| done].
    destruct (MetalDiff_supported_form A Q HA) as (c & e & _ & _ & Hval);
      [by rewrite HQ |].
    rewrite Hval in Herr by lra. done.
  - intros [HA HQ]. apply MetalDiff_no_weight; [done | done | lra].
Qed.

(** X3: [MetalDiff] fails with [ZeroDivisionError] exactly when the
    alloy is a key of the range table and [T = 0]. *)
Theorem MetalDiff_ZeroDivisionError_iff (A Q : string) (T : R) (W : bool) :
  (MetalDiff A Q T W).2 = Raise ZeroDivisionError ↔
  in_range_table A ∧ T = 0%R.
Proof.
  split.
  - intros Herr.
    destruct (decide (in_range_table A)) as [HA | HA];
      [| by rewrite MetalDiff_not_in_range_table in Herr].
    split; [done |].
    destruct (decide (T = 0%R)) as [| HT]; [done |].
    destruct (MetalDiff_nonzero_outcomes A Q T W HA HT)
      as [[d Hd] | [Ho | Hi]]; congruence.
  - intros [HA ->]. by apply MetalDiff_zero.
Qed.

(** X4: whatever the arguments, [MetalDiff] never raises [ValueError]
    (the square root is taken of a positive ratio of weights), and a
    [KeyError] it raises always carries one of its two messages, never
    the missing key of a failed subscript. *)
Theorem MetalDiff_exceptions (A Q : string) (T : R) (W : bool) :
  (MetalDiff A Q T W).2 ≠ Raise ValueError ∧
  ∀ k : string,
    (MetalDiff A Q T W).2 = Raise (KeyError k) →
    k = "Unsuported Alloy selected" ∨ k = "Unsuported Isotope selected".
Proof.
  destruct (decide (in_range_table A)) as [HA | HA].
  - assert ((∃ d, (MetalDiff A Q T W).2 = Ok d) ∨
            (MetalDiff A Q T W).2 = Raise ZeroDivisionError ∨
            (MetalDiff A Q T W).2 = Raise OverflowError ∨
            (MetalDiff A Q T W).2 =
              Raise (KeyError "Unsuported Isotope selected")) as Hcases.
    { destruct (decide (T = 0%R)) as [-> | HT].
      - right; left. by apply MetalDiff_zero.
      - destruct (MetalDiff_nonzero_outcomes A Q T W HA HT)
          as [Hd | [Ho | Hi]]; auto. }
    destruct Hcases as [[d ->] | [-> | [-> | ->]]];
      (split; [done | intros k [= <-] || intros k [=]]); by right.
  - rewrite MetalDiff_not_in_range_table by done. cbn [snd].
    split; [done |]. intros k [= <-]. by left.
Qed.

(** X5: for a pair (alloy, isotope) with direct coefficients and [T > 0],
    the returned diffusivity is not negative and does not exceed the
    pre-exponential factor [D0[A][Q]]. *)
Theorem MetalDiff_between_0_and_D0 (A Q : string) (T : R) (W : bool)
    (d0 : R) :
  coefficient D0 A Q = Some d0 →
  (0 < T)%R →
  ∃ d : R, (MetalDiff A Q T W).2 = Ok d ∧ (0 <= d <= d0)%R.
Proof.
  intros Hd HT.
  destruct (proj1 (D0_Ea_same_keys A Q)) as [ea He]; [by eexists |].
  destruct (tabulated_in_range_table A Q) as [Hlo Hhi];
    [left; by eexists |].
  exists (arrhenius_law d0 ea T). split.
  - unfold MetalDiff. rewrite MetalDiff_body_present by done.
    by rewrite (arrhenius_tabulated _ _ _ _ _ Hd He) by lra.
  - pose proof (D0_positive _ _ _ Hd). pose proof (Ea_positive _ _ _ He).
    split; apply Rlt_le;
      [by apply arrhenius_law_positive | by apply arrhenius_law_below].
Qed.

(** X7: for an isotope without direct coefficients but with an atomic
    weight, and [T > 0], the value is the function's own value for ['H']
    in the same alloy times [sqrt(M['H']/M[Q])]; it is not negative and
    does not exceed the ['H'] value. *)
Theorem MetalDiff_fallback_below_H (A Q : string) (T : R) (W : bool)
    (mQ : R) :
  in_range_table A → ¬ tabulated A Q → M !! Q = Some mQ → (0 < T)%R →
  ∃ dH : R,
    (MetalDiff A "H" T W).2 = Ok dH ∧
    (MetalDiff A Q T W).2 = Ok (dH * sqrt (1.00794 / mQ))%R ∧
    (0 <= dH * sqrt (1.00794 / mQ) <= dH)%R.
Proof.
  intros HA Hno HQ HT. pose proof HA as [Hlo Hhi].
  destruct (alloys_have_H A) as [[d0 Hd] [ea He]];
    [by apply in_range_table_alloys |].
  assert (Q ≠ "H") as HQH.
  { intros ->. apply Hno. split; by eexists. }
  pose proof (M_heavier_than_H _ _ HQ HQH) as Hheavy.
  pose proof (D0_positive _ _ _ Hd) as Hd0.
  pose proof (arrhenius_law_positive d0 ea T Hd0) as HdH.
  exists (arrhenius_law d0 ea T). unfold MetalDiff.
  rewrite !MetalDiff_body_present by done.
  rewrite (arrhenius_tabulated _ _ _ _ _ Hd He) by lra.
  destruct (arrhenius_untabulated A Q T Hno) as [k ->].
  cbn [except_all_pass].
  rewrite (graham_tabulated _ _ _ _ _ _ _ Hd He M_H HQ) by lra.
  split; [done |]. split; [done |].
  assert (0 < sqrt (1.00794 / mQ) < 1)%R as [Hs0 Hs1].
  { split.
    - apply sqrt_lt_R0, Rdiv_lt_0_compat; lra.
    - rewrite <- sqrt_1. apply sqrt_lt_1_alt. split.
      + apply Rlt_le, Rdiv_lt_0_compat; lra.
      + apply Rmult_lt_reg_r with mQ; [lra |]. field_simplify; lra. }
  split; nra.
Qed.

(** X8: with the alloy in the range table, what is printed depends on the
    range and on [W] only, whatever the isotope and the outcome: nothing
    for [T_min[A] <= T <= T_max[A]] (the bounds included) or when [W] is
    false, and the single warning line for [T] outside the range when
    [W] is true. *)
Theorem MetalDiff_warning (A Q : string) (T : R) (W : bool) (lo hi : Z) :
  T_min !! A = Some lo → T_max !! A = Some hi →
  ((IZR lo <= T <= IZR hi)%R ∨ W = false → (MetalDiff A Q T W).1 = []) ∧
  ((T < IZR lo)%R ∨ (IZR hi < T)%R →
   (MetalDiff A Q T true).1 = [warning_line lo hi]).
Proof.
  intros Hlo Hhi. rewrite !(MetalDiff_output _ _ _ _ _ _ Hlo Hhi). split.
  - intros Hin. rewrite bool_decide_eq_false_2; [done |].
    unfold out_of_range. intros [-> Hout].
    destruct Hin as [[? ?] | ?]; [lra | done].
  - intros Hout. by rewrite bool_decide_eq_true_2.
Qed.

(** X9: [MetalDiff] prints at most one line, and with [W] false or an
    alloy outside the range table it prints nothing, for all arguments. *)
Theorem MetalDiff_quiet (A Q : string) (T : R) (W : bool) :
  length (MetalDiff A Q T W).1 ≤ 1 ∧
  (W = false ∨ ¬ in_range_table A → (MetalDiff A Q T W).1 = []).
Proof.
  destruct (decide (in_range_table A)) as [[[lo Hlo] [hi Hhi]] | HA].
  - rewrite (MetalDiff_output _ _ _ _ _ _ Hlo Hhi). split.
    + case_bool_decide; simpl; lia.
    + intros [-> | Hno].
      * by rewrite bool_decide_eq_false_2 by (intros [? _]; done).
      * destruct Hno. split; by eexists.
  - rewrite MetalDiff_not_in_range_table by done. simpl. split; [lia | done].
Qed.

(** X10: every validated range of the tables is a proper interval of
    positive temperatures: [0 < T_min[A] < T_max[A]]. *)
Theorem range_tables_valid (A : string) (lo hi : Z) :
  T_min !! A = Some lo → T_max !! A = Some hi → (0 < lo < hi)%Z.
Proof.
  intros Hlo Hhi. unfold T_min in Hlo.
  table_entry Hlo; unfold T_max in Hhi; table_entry Hhi; lia.
Qed.

End MetalDiff_further.

(** ** The Fuller correlation as a real function *)

Section Fuller_law.

Lemma fuller_denominator_positive (sA sB : R) :
  (0 < (Rpower sA (1 / 3) + Rpower sB (1 / 3)) ^ 2)%R.
Proof.
  pose proof (Rpower_positive sA (1 / 3)).
  pose proof (Rpower_positive sB (1 / 3)).
  apply pow_lt. lra.
Qed.

Lemma fuller_numerator_positive (mA mB T : R) :
  (0 < 0.0101325 * (Rpower T 1.75 * Rpower (1 / mA + 1 / mB) 0.5))%R.
Proof.
  pose proof (Rpower_positive T 1.75).
  pose proof (Rpower_positive (1 / mA + 1 / mB) 0.5).
  apply Rmult_lt_0_compat; [lra | by apply Rmult_lt_0_compat].
Qed.

(** The value times the pressure is positive: the value has the sign of
    the pressure. *)
Lemma fuller_law_sign (mA mB sA sB T P : R) :
  P ≠ 0%R → (0 < fuller_law mA mB sA sB T P * P)%R.
Proof.
  intros HP.
  pose proof (fuller_denominator_positive sA sB) as Hden.
  pose proof (fuller_numerator_positive mA mB T) as Hnum.
  unfold fuller_law.
  set (n := (0.0101325 * (Rpower T 1.75 * Rpower (1 / mA + 1 / mB) 0.5))%R)
    in *.
  set (d := ((Rpower sA (1 / 3) + Rpower sB (1 / 3)) ^ 2)%R) in *.
  replace (n / (P * d) * P)%R with (n / d)%R by (field; lra).
  by apply Rdiv_lt_0_compat.
Qed.

(** Temperatures of ordinary size are far below the bound [10^176]. *)
Lemma pow10_176_large : (1000000 <= 10 ^ 176)%R.
Proof.
  apply Rle_trans with (10 ^ 6)%R; [cbn [pow]; lra |].
  apply Rle_pow; [lra | lia].
Qed.

End Fuller_law.

(** ** The gas tables and the stages of [DiffGas_AB] *)

Section Gases.
Import DiffusionGases.

(** The two gas tables have the same keys. *)
Lemma M_SIGMA_v_same_keys (A : string) :
  is_Some (M !! A) ↔ is_Some (SIGMA_v !! A).
Proof.
  split; intros [v Hv].
  - unfold M in Hv. table_entry Hv; by eexists.
  - unfold SIGMA_v in Hv. table_entry Hv; by eexists.
Qed.

(** Molar masses are at least 2 g/mol. *)
Lemma gas_M_bound (A : string) (m : R) : M !! A = Some m → (2 <= m)%R.
Proof. intros Hm. unfold M in Hm. table_entry Hm; lra. Qed.

(** Diffusion volumes are positive and at most 100 cm^3. *)
Lemma gas_SIGMA_v_bound (A : string) (v : R) :
  SIGMA_v !! A = Some v → (0 < v <= 100)%R.
Proof. intros Hv. unfold SIGMA_v in Hv. table_entry Hv; lra. Qed.

(** With both species tabulated, the powers of the table constants stay
    within the doubles, and the expression reduces to one power of [T]
    and one division; [den] is the value of
    [(SIGMA_v[A]**(1/3) + SIGMA_v[B]**(1/3))**2]. *)
Lemma fuller_known A B T P mA mB sA sB :
  M !! A = Some mA → M !! B = Some mB →
  SIGMA_v !! A = Some sA → SIGMA_v !! B = Some sB →
  let s := Rpower (1 / mA + 1 / mB) (1 / 2) in
  let den := ((Rpower sA (1 / 3) + Rpower sB (1 / 3)) ^ 2)%R in
  (0 < den)%R ∧
  fuller A B T P =
    (t ← float_pow T 1.75;
     num_div (num_mul (Float K) (num_mul t (Float s))) (Float (P * den))).
Proof.
  intros HmA HmB HsA HsB s den.
  pose proof (gas_M_bound _ _ HmA) as HmA0.
  pose proof (gas_M_bound _ _ HmB) as HmB0.
  pose proof (gas_SIGMA_v_bound _ _ HsA) as HsA0.
  pose proof (gas_SIGMA_v_bound _ _ HsB) as HsB0.
  pose proof (Rpower_positive sA (1 / 3)) as Hca.
  pose proof (Rpower_positive sB (1 / 3)) as Hcb.
  pose proof DBL_MAX_ge_1 as Hmax1.
  assert (400000000 <= DBL_MAX)%R as Hmax
    by (apply IZR_le_DBL_MAX; by vm_compute).
  split.
  { unfold den. apply pow_lt. lra. }
  assert (0 < 1 / mA + 1 / mB <= 1)%R as Hsum.
  { assert (0 < 1 / mA <= 1 / 2)%R.
    { split; [apply Rdiv_lt_0_compat; lra |].
      apply Rmult_le_reg_r with (2 * mA)%R; [lra |]. field_simplify; lra. }
    assert (0 < 1 / mB <= 1 / 2)%R.
    { split; [apply Rdiv_lt_0_compat; lra |].
      apply Rmult_le_reg_r with (2 * mB)%R; [lra |]. field_simplify; lra. }
    lra. }
  assert (Rpower (1 / mA + 1 / mB) (1 / 2) <= 1)%R as Hs.
  { pose proof (Rpower_bound (1 / mA + 1 / mB) (1 / 2) 1) as Hb.
    cbn [pow] in Hb. lra. }
  assert (Rpower sA (1 / 3) <= 10000)%R as HcA.
  { pose proof (Rpower_bound sA (1 / 3) 100) as Hb.
    cbn [pow] in Hb. lra. }
  assert (Rpower sB (1 / 3) <= 10000)%R as HcB.
  { pose proof (Rpower_bound sB (1 / 3) 100) as Hb.
    cbn [pow] in Hb. lra. }
  assert (Rpower (Rpower sA (1 / 3) + Rpower sB (1 / 3)) 2 <= 400000000)%R
    as Hsq.
  { pose proof (Rpower_bound (Rpower sA (1 / 3) + Rpower sB (1 / 3)) 2 20000)
      as Hb.
    cbn [pow] in Hb. lra. }
  unfold fuller.
  destruct (float_pow T 1.75) as [t|e]; step; [| done].
  rewrite (getitem_Some _ _ _ HmA). step.
  rewrite float_div_nonzero by lra. step.
  rewrite (getitem_Some _ _ _ HmB). step.
  rewrite float_div_nonzero by lra. step.
  rewrite float_pow_positive by lra. step.
  rewrite (getitem_Some _ _ _ HsA). step.
  rewrite float_pow_positive by lra. step.
  rewrite (getitem_Some _ _ _ HsB). step.
  rewrite float_pow_positive by lra. step.
  rewrite float_pow_positive by lra. step.
  rewrite Rpower_square by lra.
  destruct t; done.
Qed.

(** With a species missing, the expression raises [KeyError], unless the
    power of [T] has raised before. *)
Lemma fuller_unknown A B T P :
  ¬ (gas_known A ∧ gas_known B) →
  ∃ k, fuller A B T P = (t ← float_pow T 1.75; Raise (KeyError k)).
Proof.
  intros Hno. unfold fuller.
  destruct (float_pow T 1.75) as [t|e]; cbn [mbind result_bind];
    [| by exists A].
  destruct (M !! A) as [mA|] eqn:HmA;
    [rewrite (getitem_Some _ _ _ HmA)
    | rewrite (getitem_None _ _ HmA); by eauto].
  cbn [mbind result_bind].
  rewrite float_div_nonzero
    by (pose proof (gas_M_bound _ _ HmA); lra).
  destruct (M !! B) as [mB|] eqn:HmB;
    [| rewrite (getitem_None _ _ HmB); by eauto].
  destruct Hno. unfold gas_known.
  rewrite <- !M_SIGMA_v_same_keys, HmA, HmB. eauto.
Qed.

(** A range error of [T ** 1.75] is the outcome of the call, whatever
    the species and the pressure. *)
Lemma DiffGas_AB_overflow (A B : string) (T P : R) :
  float_pow T 1.75 = Raise OverflowError →
  DiffGas_AB A B T P = Raise OverflowError.
Proof.
  intros Ht. unfold DiffGas_AB, fuller. by rewrite Ht.
Qed.

(** With a species missing and [T ** 1.75] within the doubles, the
    outcome is the gas error. *)
Lemma DiffGas_AB_unknown (A B : string) (T P : R) :
  (Rabs T <= 10 ^ 176)%R →
  ¬ (gas_known A ∧ gas_known B) →
  DiffGas_AB A B T P = Raise (KeyError "Unsuported gas selected").
Proof.
  intros HT Hno. unfold DiffGas_AB.
  destruct (fuller_unknown A B T P Hno) as [k ->].
  by destruct (float_pow_1_75_total T HT) as [t ->].
Qed.

(** With both species tabulated, [0 < T <= 10^176] and [P] not zero, the
    result is the value of the correlation. *)
Lemma DiffGas_AB_value A B T P mA mB sA sB :
  M !! A = Some mA → M !! B = Some mB →
  SIGMA_v !! A = Some sA → SIGMA_v !! B = Some sB →
  (0 < T <= 10 ^ 176)%R → P ≠ 0%R →
  DiffGas_AB A B T P = Ok (Float (fuller_law mA mB sA sB T P)).
Proof.
  intros HmA HmB HsA HsB HT HP. unfold DiffGas_AB.
  destruct (fuller_known A B T P _ _ _ _ HmA HmB HsA HsB) as [Hden ->].
  rewrite float_pow_positive
    by (lra || by apply Rpower_1_75_in_range). step.
  cbn [num_div]. rewrite float_div_nonzero.
  - cbn [mbind result_bind except_KeyError_raise].
    unfold fuller_law, K. by replace (1 / 2)%R with 0.5%R by lra.
  - apply Rmult_integral_contrapositive_currified; lra.
Qed.

(** With both species tabulated, [|T| <= 10^176] and [P] not zero, a
    value is returned. *)
Lemma DiffGas_AB_returns A B T P :
  (Rabs T <= 10 ^ 176)%R →
  gas_known A → gas_known B → P ≠ 0%R → ∃ v, DiffGas_AB A B T P = Ok v.
Proof.
  intros HT [[mA HmA] [sA HsA]] [[mB HmB] [sB HsB]] HP. unfold DiffGas_AB.
  destruct (fuller_known A B T P _ _ _ _ HmA HmB HsA HsB) as [Hden ->].
  destruct (float_pow_1_75_total T HT) as [t ->].
  cbn [mbind result_bind].
  edestruct num_div_nonzero as [v ->]; [| by eauto].
  apply Rmult_integral_contrapositive_currified; lra.
Qed.

(** With both species tabulated, [|T| <= 10^176] and [P = 0], the final
    division raises. *)
Lemma DiffGas_AB_zero A B T :
  (Rabs T <= 10 ^ 176)%R →
  gas_known A → gas_known B → DiffGas_AB A B T 0 = Raise ZeroDivisionError.
Proof.
  intros HT [[mA HmA] [sA HsA]] [[mB HmB] [sB HsB]]. unfold DiffGas_AB.
  destruct (fuller_known A B T 0 _ _ _ _ HmA HmB HsA HsB) as [Hden ->].
  destruct (float_pow_1_75_total T HT) as [t ->].
  cbn [mbind result_bind].
  by rewrite Rmult_0_l, num_div_zero.
Qed.

End Gases.

(** ** Properties of [DiffGas_AB] *)

Section DiffGas_AB_properties.
Import DiffusionGases.



(** C10, amended: for species that are keys of both gas tables, [P = 0]
    and every temperature with [|T| <= 10^176], [DiffGas_AB] fails with
    [ZeroDivisionError], which is not the gas error. *)
Theorem DiffGas_AB_zero_pressure (A B : string) (T : R) :
  gas_known A → gas_known B →
  (Rabs T <= 10 ^ 176)%R →
  DiffGas_AB A B T 0 = Raise ZeroDivisionError ∧
  DiffGas_AB A B T 0 ≠ Raise (KeyError "Unsuported gas selected").
Proof.
  intros HA HB Hmax. by rewrite DiffGas_AB_zero.
Qed.

End DiffGas_AB_properties.

(** ** Further properties of [DiffGas_AB] *)

Section DiffGas_AB_further.
Import DiffusionGases.

(** X11: [DiffGas_AB] is symmetric in its two species, for all arguments:
    the same value, or the same exception. *)
Theorem DiffGas_AB_symmetric (A B : string) (T P : R) :
  DiffGas_AB A B T P = DiffGas_AB B A T P.
Proof.
  destruct (decide (gas_known A ∧ gas_known B)) as [[HA HB] | Hno].
  - destruct HA as [[mA HmA] [sA HsA]]. destruct HB as [[mB HmB] [sB HsB]].
    unfold DiffGas_AB.
    destruct (fuller_known A B T P _ _ _ _ HmA HmB HsA HsB) as [_ ->].
    destruct (fuller_known B A T P _ _ _ _ HmB HmA HsB HsA) as [_ ->].
    by rewrite (Rplus_comm (1 / mA)), (Rplus_comm (Rpower sA (1 / 3))).
  - unfold DiffGas_AB.
    destruct (fuller_unknown A B T P Hno) as [k ->].
    destruct (fuller_unknown B A T P) as [k' ->]; [tauto |].
    by destruct (float_pow T 1.75).
Qed.

(** X12: for every temperature with [|T| <= 10^176], [DiffGas_AB] fails
    with [ZeroDivisionError] exactly when both species are tabulated and
    [P = 0]. *)
Theorem DiffGas_AB_ZeroDivisionError_iff (A B : string) (T P : R) :
  (Rabs T <= 10 ^ 176)%R →
  DiffGas_AB A B T P = Raise ZeroDivisionError ↔
  gas_known A ∧ gas_known B ∧ P = 0%R.
Proof.
  intros Hmax. split.
  - intros Herr.
    destruct (decide (gas_known A ∧ gas_known B)) as [[HA HB] | Hno];
      [| by rewrite DiffGas_AB_unknown in Herr].
    split; [done |]. split; [done |].
    destruct (decide (P = 0%R)) as [| HP]; [done |].
    destruct (DiffGas_AB_returns A B T P Hmax HA HB HP) as [v Hv].
    congruence.
  - intros (HA & HB & ->). by apply DiffGas_AB_zero.
Qed.

(** X13: for tabulated species, [0 < T <= 10^176] and a pressure that is
    not zero, [DiffGas_AB] returns a float that never has the sign
    opposite to the pressure: a negative pressure is accepted without an
    error and gives a value that is not positive. *)
Theorem DiffGas_AB_sign (A B : string) (T P : R) :
  gas_known A → gas_known B → (0 < T <= 10 ^ 176)%R → P ≠ 0%R →
  ∃ d : R,
    DiffGas_AB A B T P = Ok (Float d) ∧
    ((0 < P)%R → (0 <= d)%R) ∧ ((P < 0)%R → (d <= 0)%R).
Proof.
  intros [[mA HmA] [sA HsA]] [[mB HmB] [sB HsB]] HT HP.
  exists (fuller_law mA mB sA sB T P).
  split; [by apply DiffGas_AB_value |].
  pose proof (fuller_law_sign mA mB sA sB T P HP) as Hsign.
  split; intros HP'; nra.
Qed.

(** X17: for tabulated species and a pressure that is not zero, [T = 0]
    is accepted and the value is the float zero. *)
Theorem DiffGas_AB_zero_temperature (A B : string) (P : R) :
  gas_known A → gas_known B → P ≠ 0%R →
  DiffGas_AB A B 0 P = Ok (Float 0).
Proof.
  intros [[mA HmA] [sA HsA]] [[mB HmB] [sB HsB]] HP. unfold DiffGas_AB.
  destruct (fuller_known A B 0 P _ _ _ _ HmA HmB HsA HsB) as [Hden ->].
  rewrite float_pow_zero by lra.
  cbn [mbind result_bind num_mul num_div].
  rewrite float_div_nonzero
    by (apply Rmult_integral_contrapositive_currified; lra).
  cbn [mbind result_bind except_KeyError_raise].
  do 2 f_equal. unfold Rdiv. ring.
Qed.

(** X18: for tabulated species and a pressure that is not zero, a
    negative temperature [-10^176 <= T < 0] is accepted too: no exception
    is raised, [T**1.75] leaves the floats, and the value returned is a
    complex number. *)
Theorem DiffGas_AB_negative_temperature (A B : string) (T P : R) :
  gas_known A → gas_known B →
  (- 10 ^ 176 <= T)%R → (T < 0)%R → P ≠ 0%R →
  ∃ re im : R, DiffGas_AB A B T P = Ok (Complex re im).
Proof.
  intros [[mA HmA] [sA HsA]] [[mB HmB] [sB HsB]] Hlo HT HP.
  unfold DiffGas_AB.
  destruct (fuller_known A B T P _ _ _ _ HmA HmB HsA HsB) as [Hden ->].
  destruct (float_pow_negative T Hlo HT) as (re & im & ->).
  cbn [mbind result_bind num_mul num_div real imag].
  assert (P * (Rpower sA (1 / 3) + Rpower sB (1 / 3)) ^ 2 ≠ 0)%R as Hy
    by (apply Rmult_integral_contrapositive_currified; lra).
  rewrite decide_False by (intros [? _]; done).
  cbn [except_KeyError_raise]. by eexists _, _.
Qed.

(** X19: run as a script, [DiffusionGases.py] ends with the gas error:
    the species ['HO'] of its self-test is not a key of the tables. *)
Theorem DiffusionGases_main_raises :
  main = Raise (KeyError "Unsuported gas selected") ∧ ¬ gas_known "HO".
Proof.
  assert (¬ gas_known "HO") as HHO.
  { intros [[m Hm] _]. discriminate Hm. }
  split; [| done]. unfold main.
  apply DiffGas_AB_unknown; [| tauto].
  pose proof pow10_176_large. rewrite Rabs_pos_eq; lra.
Qed.

End DiffGas_AB_further.

(** ** Concrete calls *)

Section Calls.

Lemma SS304_in_range_table : in_range_table "SS304".
Proof. split; by eexists. Qed.

Lemma H2_known : gas_known "H2".
Proof. split; by eexists. Qed.

Lemma Air_known : gas_known "Air".
Proof. split; by eexists. Qed.

Lemma ordinary_temperature (T : R) :
  (Rabs T <= 1000000)%R → (Rabs T <= 10 ^ 176)%R.
Proof. pose proof pow10_176_large. lra. Qed.

Lemma untabulated (A Q : string) :
  coefficient DiffusionAlloys.D0 A Q = None → ¬ tabulated A Q.
Proof. intros H [[v Hv] _]. congruence. Qed.

(** [MetalDiff('SS304', 'H', 1000)] prints the warning and still returns
    the Arrhenius value. *)
Example MetalDiff_SS304_H_1000 :
  DiffusionAlloys.MetalDiff "SS304" "H" 1000 true =
    (["Warning: Temperature used out of the correlation range [ 645 - 945 ]K"],
     Ok (1.22e-6 * exp (- (54.85) * 1000 / (8.314 * 1000)))%R).
Proof.
  unfold DiffusionAlloys.MetalDiff, DiffusionAlloys.MetalDiff_body.
  rewrite (range_check_present _ _ _ _ _ 645 945) by done.
  rewrite bool_decide_eq_true_2 by (split; [done | right; lra]).
  rewrite (arrhenius_tabulated _ _ _ 1.22e-6 54.85)%R by (done || lra).
  by f_equal.
Qed.

(** [MetalDiff('SS316', 'H', 700, W = False)], the call of the source's
    self-test, prints nothing. *)
Example MetalDiff_SS316_H_700 :
  DiffusionAlloys.MetalDiff "SS316" "H" 700 false =
    ([], Ok (1.24e-6 * exp (- (55.10) * 1000 / (8.314 * 700)))%R).
Proof.
  unfold DiffusionAlloys.MetalDiff, DiffusionAlloys.MetalDiff_body.
  rewrite (range_check_present _ _ _ _ _ 623 1123) by done.
  rewrite bool_decide_eq_false_2 by (intros [? _]; done).
  rewrite (arrhenius_tabulated _ _ _ 1.24e-6 55.10)%R by (done || lra).
  reflexivity.
Qed.

(** [DiffGas_AB('HO', 'Air', 60+273, 1.0*101325)], the call of the
    source's self-test: ['HO'] is not a key of the tables. *)
Example DiffGas_AB_HO_Air :
  DiffusionGases.DiffGas_AB "HO" "Air" (60 + 273) (1.0 * 101325) =
    Raise (KeyError "Unsuported gas selected").
Proof.
  apply DiffGas_AB_unknown.
  - apply ordinary_temperature. rewrite Rabs_pos_eq; lra.
  - intros [[[m Hm] _] _]. discriminate Hm.
Qed.

End Calls.

(** ** The properties at concrete calls *)

Section Instances.
Import DiffusionAlloys.

(** [MetalDiff_direct] at the call of the source's self-test. *)
Lemma MetalDiff_direct_witness :
  (MetalDiff "SS316" "H" 700 false).2 =
    Ok (1.24e-6 * exp (- (55.10) * 1000 / (8.314 * 700)))%R.
Proof.
  apply (MetalDiff_direct "SS316" "H" 700 false 1.24e-6 55.10);
    [reflexivity | reflexivity | lra].
Defined.

(** [MetalDiff_graham] at deuterium in SS304, which tabulates ['H'] only. *)
Lemma MetalDiff_graham_witness :
  (MetalDiff "SS304" "D" 700 true).2 =
    Ok (1.22e-6 * exp (- (54.85) * 1000 / (8.314 * 700))
          * sqrt (1.00794 / 2.01410))%R.
Proof.
  apply (MetalDiff_graham "SS304" "D" 700 true 1.22e-6 54.85 1.00794 2.01410);
    [reflexivity | reflexivity | apply untabulated; reflexivity
    | reflexivity | reflexivity | lra].
Defined.

(** [MetalDiff_unsupported_alloy] at an alloy that is not tabulated. *)
Lemma MetalDiff_unsupported_alloy_witness :
  MetalDiff "UnknownAlloy" "H" 500 true =
    ([], Raise (KeyError "Unsuported Alloy selected")).
Proof.
  apply (MetalDiff_unsupported_alloy "UnknownAlloy" "H" 500 true).
  intros [[lo Hlo] _]. discriminate Hlo.
Defined.

(** The isotope error is not what [MetalDiff] raises at [T = 0]: for the
    alloy SS304 and an isotope without coefficients and without an atomic
    weight, the fallback stage divides by zero before it subscripts the
    weight table. *)
Lemma MetalDiff_isotope_error_counterexample :
  in_range_table "SS304" ∧
  ¬ tabulated "SS304" "Xx" ∧
  M !! "Xx" = None ∧
  (MetalDiff "SS304" "Xx" 0 true).2 = Raise ZeroDivisionError ∧
  (MetalDiff "SS304" "Xx" 0 true).2 ≠
    Raise (KeyError "Unsuported Isotope selected").
Proof.
  pose proof (MetalDiff_zero "SS304" "Xx" true SS304_in_range_table) as H0.
  split; [apply SS304_in_range_table |].
  split; [apply untabulated; reflexivity |].
  split; [reflexivity |].
  split; [exact H0 | by rewrite H0].
Qed.

(** [MetalDiff_unsupported_isotope] at the same alloy and isotope, now at
    a positive temperature. *)
Lemma MetalDiff_unsupported_isotope_witness :
  (MetalDiff "SS304" "Xx" 700 true).2 =
    Raise (KeyError "Unsuported Isotope selected").
Proof.
  apply (MetalDiff_unsupported_isotope "SS304" "Xx" 700 true);
    [split; by eexists | apply untabulated; reflexivity | reflexivity | lra].
Defined.

(** [MetalDiff_warning_independent] at a temperature above the range of
    SS304: with and without the warning the outcome is the same. *)
Lemma MetalDiff_warning_independent_witness :
  (MetalDiff "SS304" "H" 1000 false).2 = (MetalDiff "SS304" "H" 1000 true).2.
Proof.
  refine (proj1 (MetalDiff_warning_independent "SS304" "H" 1000 true _ _) false);
    [split; by eexists | lra].
Defined.

(** [MetalDiff_zero_temperature] at a directly tabulated pair. *)
Lemma MetalDiff_zero_temperature_witness :
  (MetalDiff "SS316" "H" 0 false).2 = Raise ZeroDivisionError.
Proof.
  apply (MetalDiff_zero_temperature "SS316" "H" false).
  split; by eexists.
Defined.





(** [DiffGas_AB_zero_pressure] for hydrogen in air at 298 K. *)
Lemma DiffGas_AB_zero_pressure_witness :
  DiffusionGases.DiffGas_AB "H2" "Air" 298 0 = Raise ZeroDivisionError.
Proof.
  apply (DiffGas_AB_zero_pressure "H2" "Air" 298);
    [split; by eexists | split; by eexists
    | apply ordinary_temperature; rewrite Rabs_pos_eq; lra].
Defined.

(** At [T = 10^200] and [P = 0] the exception is [OverflowError], raised
    by [T**1.75] before the division is reached. *)
Lemma DiffGas_AB_zero_pressure_counterexample :
  gas_known "H2" ∧ gas_known "Air" ∧
  DiffusionGases.DiffGas_AB "H2" "Air" (10 ^ 200) 0 = Raise OverflowError ∧
  DiffusionGases.DiffGas_AB "H2" "Air" (10 ^ 200) 0 ≠
    Raise ZeroDivisionError.
Proof.
  pose proof (DiffGas_AB_overflow "H2" "Air" (10 ^ 200) 0 float_pow_1e200)
    as H0.
  split; [apply H2_known |]. split; [apply Air_known |].
  split; [exact H0 | by rewrite H0].
Qed.

End Instances.

(** ** The further properties at concrete calls *)

Section Further_instances.
Import DiffusionAlloys.

(** X20: run as a script, [DiffusionAlloys.py] prints nothing and its
    self-test call returns a diffusivity between 0 and [D0['SS316']['H']]. *)
Theorem DiffusionAlloys_main_returns :
  ∃ d : R, main = ([], Ok d) ∧ (0 < d < 1.24e-6)%R.
Proof.
  exists (arrhenius_law 1.24e-6 55.10 700). split.
  - unfold main, MetalDiff, MetalDiff_body.
    rewrite (range_check_present _ _ _ _ _ 623 1123) by done.
    rewrite bool_decide_eq_false_2 by (intros [? _]; done).
    by rewrite (arrhenius_tabulated _ _ _ 1.24e-6 55.10)%R by (done || lra).
  - split; [apply arrhenius_law_positive | apply arrhenius_law_below]; lra.
Qed.

Lemma MetalDiff_returns_iff_witness :
  ∃ d : R, (MetalDiff "SS304" "He" 700 true).2 = Ok d.
Proof.
  apply (MetalDiff_returns_iff "SS304" "He" 700 true);
    [lra | split; [split; by eexists | by eexists]].
Defined.

Lemma MetalDiff_isotope_error_iff_witness :
  (MetalDiff "SS304" "Xx" 700 true).2 =
    Raise (KeyError "Unsuported Isotope selected").
Proof.
  apply (MetalDiff_isotope_error_iff "SS304" "Xx" 700 true);
    [lra | split; [split; by eexists | reflexivity]].
Defined.

Lemma MetalDiff_between_0_and_D0_witness :
  ∃ d : R, (MetalDiff "SS316" "D" 700 false).2 = Ok d ∧ (0 <= d <= 1.38e-6)%R.
Proof.
  apply (MetalDiff_between_0_and_D0 "SS316" "D" 700 false 1.38e-6);
    [reflexivity | lra].
Defined.

Lemma MetalDiff_fallback_below_H_witness :
  ∃ dH : R,
    (MetalDiff "SS304" "H" 700 true).2 = Ok dH ∧
    (MetalDiff "SS304" "He" 700 true).2 = Ok (dH * sqrt (1.00794 / 4.00260))%R ∧
    (0 <= dH * sqrt (1.00794 / 4.00260) <= dH)%R.
Proof.
  apply (MetalDiff_fallback_below_H "SS304" "He" 700 true 4.00260);
    [split; by eexists | apply untabulated; reflexivity | reflexivity | lra].
Defined.

Lemma MetalDiff_warning_witness :
  (MetalDiff "SS304" "H" 945 true).1 = [].
Proof.
  refine (proj1 (MetalDiff_warning "SS304" "H" 945 true 645 945 _ _) _);
    [reflexivity | reflexivity | left; lra].
Defined.

Lemma range_tables_valid_witness : (0 < 645 < 945)%Z.
Proof.
  apply (range_tables_valid "SS304" 645 945); reflexivity.
Defined.

Lemma DiffGas_AB_ZeroDivisionError_iff_witness :
  DiffusionGases.DiffGas_AB "H2" "Air" 298 0 = Raise ZeroDivisionError.
Proof.
  apply (DiffGas_AB_ZeroDivisionError_iff "H2" "Air" 298 0);
    [apply ordinary_temperature; rewrite Rabs_pos_eq; lra
    | split; [split; by eexists | split; [split; by eexists | reflexivity]]].
Defined.

Lemma DiffGas_AB_sign_witness :
  ∃ d : R,
    DiffusionGases.DiffGas_AB "H2" "Air" 298 (-101325) = Ok (Float d) ∧
    ((0 < -101325)%R → (0 <= d)%R) ∧ ((-101325 < 0)%R → (d <= 0)%R).
Proof.
  apply (DiffGas_AB_sign "H2" "Air" 298 (-101325));
    [split; by eexists | split; by eexists
    | pose proof pow10_176_large; lra | lra].
Defined.

Lemma DiffGas_AB_zero_temperature_witness :
  DiffusionGases.DiffGas_AB "H2" "Air" 0 101325 = Ok (Float 0).
Proof.
  apply (DiffGas_AB_zero_temperature "H2" "Air" 101325);
    [split; by eexists | split; by eexists | lra].
Defined.

Lemma DiffGas_AB_negative_temperature_witness :
  ∃ re im : R,
    DiffusionGases.DiffGas_AB "H2" "Air" (-298) 101325 = Ok (Complex re im).
Proof.
  apply (DiffGas_AB_negative_temperature "H2" "Air" (-298) 101325);
    [split; by eexists | split; by eexists
    | pose proof pow10_176_large; lra | lra | lra].
Defined.

End Further_instances.
